(** * NewsBrief: playback position tracker, briefing cache and history

    A shallow embedding of the bookkeeping in [src/App.tsx] (the playback
    refs and handlers, the background cache, the history list and the
    generation pipeline) and of [generateBriefingScript] from the Gemini
    service module.  Times and offsets are rationals (JavaScript numbers
    without rounding). *)

From Stdlib Require Import QArith Qminmax Qround Lqa.
From stdpp Require Import base gmap strings list pretty.

(* ================================================================= *)
(** ** Playback position tracker *)

Module Tracker.
Local Open Scope Q_scope.

(** What the audio handlers do to the outside world, in program order. *)
Inductive Effect :=
  | Committed (played : Q)          (* savedBufferOffsetRef += played *)
  | StartFailed (src : nat) (offset : Q)  (* source.start(0, offset) threw *)
  | Started (src : nat) (offset : Q)      (* source.start(0, offset) returned *)
  | Detached (src : nat)            (* source.onended = null *)
  | Stopped (src : nat)             (* source.stop() *)
  | Disconnected (src : nat)        (* source.disconnect() *)
  | RateSet (src : nat) (rate : Q). (* source.playbackRate.value = rate *)

(** The refs and the pieces of React state the handlers read and write.
    Buffer sources are numbered in order of creation. *)
Record Tracker := mkTracker {
  ctx_present : bool;          (* audioContextRef.current !== null *)
  now : Q;                     (* audioContextRef.current.currentTime *)
  buffer : option Q;           (* audioBufferRef.current, by its duration *)
  savedBufferOffset : Q;       (* savedBufferOffsetRef.current *)
  segmentStartTime : Q;        (* segmentStartTimeRef.current *)
  playbackRate : Q;            (* playbackRate state *)
  playing : bool;              (* appState === AppState.PLAYING *)
  sourceNode : option nat;     (* sourceNodeRef.current *)
  next_source : nat;           (* number of the next createBufferSource() *)
  handlers : list nat;         (* sources whose onended is attached *)
  log : list Effect
}.

Definition set_offset_seg (o s : Q) (t : Tracker) : Tracker :=
  mkTracker (ctx_present t) (now t) (buffer t) o s (playbackRate t)
    (playing t) (sourceNode t) (next_source t) (handlers t) (log t).

Definition set_offset (o : Q) (t : Tracker) : Tracker :=
  set_offset_seg o (segmentStartTime t) t.

Definition set_rate (r : Q) (t : Tracker) : Tracker :=
  mkTracker (ctx_present t) (now t) (buffer t) (savedBufferOffset t)
    (segmentStartTime t) r (playing t) (sourceNode t) (next_source t)
    (handlers t) (log t).

Definition set_playing (b : bool) (t : Tracker) : Tracker :=
  mkTracker (ctx_present t) (now t) (buffer t) (savedBufferOffset t)
    (segmentStartTime t) (playbackRate t) b (sourceNode t) (next_source t)
    (handlers t) (log t).

Definition set_handlers (hs : list nat) (t : Tracker) : Tracker :=
  mkTracker (ctx_present t) (now t) (buffer t) (savedBufferOffset t)
    (segmentStartTime t) (playbackRate t) (playing t) (sourceNode t)
    (next_source t) hs (log t).

Definition emit (e : Effect) (t : Tracker) : Tracker :=
  mkTracker (ctx_present t) (now t) (buffer t) (savedBufferOffset t)
    (segmentStartTime t) (playbackRate t) (playing t) (sourceNode t)
    (next_source t) (handlers t) (log t ++ [e]).

Definition advance (dt : Q) (t : Tracker) : Tracker :=
  mkTracker (ctx_present t) (now t + dt) (buffer t) (savedBufferOffset t)
    (segmentStartTime t) (playbackRate t) (playing t) (sourceNode t)
    (next_source t) (handlers t) (log t).

(** [createBufferSource()]: a fresh source number. *)
Definition create_source (t : Tracker) : nat * Tracker :=
  (next_source t,
   mkTracker (ctx_present t) (now t) (buffer t) (savedBufferOffset t)
     (segmentStartTime t) (playbackRate t) (playing t) (sourceNode t)
     (S (next_source t)) (handlers t) (log t)).

(** After [source.start] returned: segment start, source ref, PLAYING,
    onended attached. *)
Definition begin_segment (src : nat) (t : Tracker) : Tracker :=
  mkTracker (ctx_present t) (now t) (buffer t) (savedBufferOffset t)
    (now t) (playbackRate t) true (Some src) (next_source t)
    (src :: handlers t) (log t).

(** [commitProgress(rate)] *)
Definition commitProgress (rate : Q) (t : Tracker) : Tracker :=
  if ctx_present t then
    let n := now t in
    let elapsedRealTime := n - segmentStartTime t in
    let playedBufferTime := elapsedRealTime * rate in
    emit (Committed playedBufferTime)
      (set_offset_seg (savedBufferOffset t + playedBufferTime) n t)
  else t.

Section Playback.

(** Whether [source.start(0, offset)] returns normally for a buffer of the
    given duration (it throws otherwise); the Web Audio engine decides. *)
Variable start_ok : Q -> Q -> bool.

(** [playAudio] *)
Definition playAudio (t : Tracker) : Tracker :=
  match buffer t with
  | None => t
  | Some d =>
      if negb (ctx_present t) then t else
      let '(src, t1) := create_source t in
      let startOffset := Qmax 0 (savedBufferOffset t1) in
      if start_ok startOffset d then
        begin_segment src (emit (Started src startOffset) t1)
      else
        let t2 := set_offset 0 (emit (StartFailed src startOffset) t1) in
        if start_ok 0 d then begin_segment src (emit (Started src 0) t2)
        else emit (StartFailed src 0) t2   (* the rejection escapes *)
  end.

(** [pauseAudio] *)
Definition pauseAudio (t : Tracker) : Tracker :=
  match sourceNode t with
  | Some src =>
      if ctx_present t then
        let t1 := commitProgress (playbackRate t) t in
        let t2 := emit (Detached src)
                    (set_handlers (remove Nat.eq_dec src (handlers t1)) t1) in
        let t3 := emit (Disconnected src) (emit (Stopped src) t2) in
        set_playing false t3
      else t
  | None => t
  end.

(** [handleRateChange] with the parsed slider value [newRate]. *)
Definition handleRateChange (newRate : Q) (t : Tracker) : Tracker :=
  let t1 :=
    match sourceNode t with
    | Some src =>
        if playing t then
          emit (RateSet src newRate) (commitProgress (playbackRate t) t)
        else t
    | None => t
    end in
  set_rate newRate t1.

(** The [onended] callback of source [src], when the engine fires it. *)
Definition onended (src : nat) (t : Tracker) : Tracker :=
  if in_dec Nat.eq_dec src (handlers t) then
    set_offset 0 (set_playing false t)
  else t.

(** Events reaching the tracker: time passing on the audio clock, a click
    on the play/pause button (which calls [pauseAudio] while PLAYING and
    [playAudio] otherwise), the rate slider, and the end of a source. *)
Inductive Event :=
  | Wait (dt : Q)
  | Click
  | SetRate (r : Q)
  | Ended (src : nat).

Definition step (e : Event) (t : Tracker) : Tracker :=
  match e with
  | Wait dt => advance dt t
  | Click => if playing t then pauseAudio t else playAudio t
  | SetRate r => handleRateChange r t
  | Ended src => onended src t
  end.

Fixpoint run (es : list Event) (t : Tracker) : Tracker :=
  match es with
  | [] => t
  | e :: es' => run es' (step e t)
  end.

End Playback.

(** The inputs the UI can produce: the audio clock does not go back, and
    the slider's range is 0.5 to 2.0. *)
Definition valid_event (e : Event) : bool :=
  match e with
  | Wait dt => Qle_bool 0 dt
  | SetRate r => Qle_bool (1#2) r && Qle_bool r 2
  | _ => true
  end.

(** [AudioBufferSourceNode.start(when, offset)] throws a RangeError only for
    a negative offset; an offset past the end is clamped. *)
Definition web_start_ok (offset _duration : Q) : bool := Qle_bool 0 offset.

(** The tracker right after a buffer of duration [d] was loaded. *)
Definition loaded (d : Q) : Tracker :=
  mkTracker true 0 (Some d) 0 0 1 false None 0 [] [].

(** Where the live source is in its buffer: the committed offset plus the
    audio-clock time since the last commit, scaled by the rate. *)
Definition position (t : Tracker) : Q :=
  savedBufferOffset t + (now t - segmentStartTime t) * playbackRate t.

(** An audio engine that runs the [onended] task no later than the moment
    the live source reaches the end of its buffer: no clock step carries
    a playing source past the end. *)
Definition timely (e : Event) (t : Tracker) : bool :=
  match e, buffer t with
  | Wait dt, Some d =>
      negb (playing t)
      || Qle_bool (savedBufferOffset t + (now t + dt - segmentStartTime t)
                     * playbackRate t) d
  | _, _ => true
  end.

Fixpoint valid_run (es : list Event) : bool :=
  match es with
  | [] => true
  | e :: es' => valid_event e && valid_run es'
  end.

Fixpoint timely_run (start_ok : Q -> Q -> bool) (es : list Event)
    (t : Tracker) : bool :=
  match es with
  | [] => true
  | e :: es' => timely e t && timely_run start_ok es' (step start_ok e t)
  end.

End Tracker.

(* ================================================================= *)
(** ** Briefings, cache, history and the generation pipeline *)

Module App.
Local Open Scope string_scope.

(** [types.ts] *)
Inductive ArticleType := AText | AUrl | ASearch.

Record Article := mkArticle {
  article_id : string; article_type : ArticleType; content : string }.

Record GroundingSource := mkSource { title : string; uri : string }.

Inductive AppState := IDLE | SUMMARIZING | SYNTHESIZING | READY | PLAYING | ERROR.

Inductive VoiceName := Kore | Puck | Fenrir | Charon | Zephyr.

Inductive Language := English | Spanish | French | German | Japanese.

Inductive VoiceGender := Male | Female.

(** A decoded buffer, by its sample count, sample rate and channels. *)
Record AudioBuffer := mkAudioBuffer {
  ab_length : Z; ab_sampleRate : Z; ab_channels : Z }.

Inductive CacheStatus := Pending | Ready | Failed.   (* 'pending' | 'ready' | 'error' *)

Record CachedBriefing := mkCached {
  cb_id : string;
  cb_summary : string;
  cb_sources : list GroundingSource;
  cb_audioBuffer : option AudioBuffer;
  cb_imageUrl : option string;
  cb_status : CacheStatus;
  cb_timestamp : Z }.

Record HistoryItem := mkHistory {
  h_id : string;
  h_timestamp : Z;
  h_topic : string;
  h_summary : string;
  h_sources : list GroundingSource;
  h_imageUrl : option string;
  h_audioBuffer : AudioBuffer }.

Record BriefingResult := mkResult {
  script : string; br_sources : list GroundingSource }.

(** Requests sent to the generative service. *)
Inductive RemoteCall :=
  | CallScript (articles : list Article) (lang : Language)
  | CallSpeech (text : string) (voice : VoiceName)
  | CallImage (prompt : string).

(** The component state, the refs, [Date.now()] and the requests issued. *)
Record World := mkWorld {
  articles : list Article;
  appState : AppState;
  summary : string;
  sources : list GroundingSource;
  imageUrl : option string;
  selectedLanguage : Language;
  selectedGender : VoiceGender;
  errorMessage : option string;
  cache : gmap string CachedBriefing;
  history : list HistoryItem;
  audioBufferRef : option AudioBuffer;
  savedBufferOffsetRef : Q;
  clock : Z;
  calls : list RemoteCall }.

(** A state and exception monad: a thrown error carries [err.message]. *)
Definition M (A : Type) : Type := World -> (A + string) * World.

Global Instance M_ret : MRet M := fun A x w => (inl x, w).
Global Instance M_bind : MBind M := fun A B f m w =>
  match m w with
  | (inl a, w') => f a w'
  | (inr e, w') => (inr e, w')
  end.

Definition throw {A} (msg : string) : M A := fun w => (inr msg, w).

Definition try_catch {A} (m : M A) (h : string -> M A) : M A := fun w =>
  match m w with
  | (inr e, w') => h e w'
  | r => r
  end.

(** A promise after it settled: its value or the rejection message. *)
Definition promise (A : Type) : Type := A + string.

(** Calling an async function runs it up to its settlement. *)
Definition launch {A} (m : M A) : M (promise A) := fun w =>
  match m w with
  | (inl a, w') => (inl (inl a), w')
  | (inr e, w') => (inl (inr e), w')
  end.

Definition await {A} (p : promise A) : M A :=
  match p with inl a => mret a | inr e => throw e end.

Definition gets {A} (f : World -> A) : M A := fun w => (inl (f w), w).
Definition modify (f : World -> World) : M unit := fun w => (inl tt, f w).

(** A request to the service whose outcome the service decides. *)
Definition remote {A} (c : RemoteCall) (outcome : A + string) : M A :=
  fun w =>
    let w' := mkWorld (articles w) (appState w) (summary w) (sources w)
                (imageUrl w) (selectedLanguage w) (selectedGender w)
                (errorMessage w) (cache w) (history w) (audioBufferRef w)
                (savedBufferOffsetRef w) (clock w) (calls w ++ [c]) in
    (outcome, w').

(** The React setters. *)
Definition setArticles (x : list Article) : M unit := modify (fun w =>
  mkWorld x (appState w) (summary w) (sources w) (imageUrl w)
    (selectedLanguage w) (selectedGender w) (errorMessage w) (cache w)
    (history w) (audioBufferRef w) (savedBufferOffsetRef w) (clock w) (calls w)).
Definition setAppState (x : AppState) : M unit := modify (fun w =>
  mkWorld (articles w) x (summary w) (sources w) (imageUrl w)
    (selectedLanguage w) (selectedGender w) (errorMessage w) (cache w)
    (history w) (audioBufferRef w) (savedBufferOffsetRef w) (clock w) (calls w)).
Definition setSummary (x : string) : M unit := modify (fun w =>
  mkWorld (articles w) (appState w) x (sources w) (imageUrl w)
    (selectedLanguage w) (selectedGender w) (errorMessage w) (cache w)
    (history w) (audioBufferRef w) (savedBufferOffsetRef w) (clock w) (calls w)).
Definition setSources (x : list GroundingSource) : M unit := modify (fun w =>
  mkWorld (articles w) (appState w) (summary w) x (imageUrl w)
    (selectedLanguage w) (selectedGender w) (errorMessage w) (cache w)
    (history w) (audioBufferRef w) (savedBufferOffsetRef w) (clock w) (calls w)).
Definition setImageUrl (x : option string) : M unit := modify (fun w =>
  mkWorld (articles w) (appState w) (summary w) (sources w) x
    (selectedLanguage w) (selectedGender w) (errorMessage w) (cache w)
    (history w) (audioBufferRef w) (savedBufferOffsetRef w) (clock w) (calls w)).
Definition setErrorMessage (x : option string) : M unit := modify (fun w =>
  mkWorld (articles w) (appState w) (summary w) (sources w) (imageUrl w)
    (selectedLanguage w) (selectedGender w) x (cache w)
    (history w) (audioBufferRef w) (savedBufferOffsetRef w) (clock w) (calls w)).
Definition setCache (f : gmap string CachedBriefing -> gmap string CachedBriefing)
  : M unit := modify (fun w =>
  mkWorld (articles w) (appState w) (summary w) (sources w) (imageUrl w)
    (selectedLanguage w) (selectedGender w) (errorMessage w) (f (cache w))
    (history w) (audioBufferRef w) (savedBufferOffsetRef w) (clock w) (calls w)).
Definition setHistory (f : list HistoryItem -> list HistoryItem) : M unit :=
  modify (fun w =>
  mkWorld (articles w) (appState w) (summary w) (sources w) (imageUrl w)
    (selectedLanguage w) (selectedGender w) (errorMessage w) (cache w)
    (f (history w)) (audioBufferRef w) (savedBufferOffsetRef w) (clock w) (calls w)).
(** [audioBufferRef.current = b; savedBufferOffsetRef.current = 0] *)
Definition loadBuffer (b : AudioBuffer) : M unit := modify (fun w =>
  mkWorld (articles w) (appState w) (summary w) (sources w) (imageUrl w)
    (selectedLanguage w) (selectedGender w) (errorMessage w) (cache w)
    (history w) (Some b) 0%Q (clock w) (calls w)).

(** [Date.now()] *)
Definition dateNow : M Z := gets clock.

(** JavaScript truthiness of a string: non-empty. *)
Definition truthy (s : string) : bool := negb (String.eqb s "").

(** [String.prototype.trim], over the ASCII white space characters. *)
Definition is_space (c : Ascii.ascii) : bool :=
  match Ascii.nat_of_ascii c with
  | 9 | 10 | 11 | 12 | 13 | 32 => true
  | _ => false
  end.

Fixpoint trim_start (s : string) : string :=
  match s with
  | String.EmptyString => String.EmptyString
  | String.String c s' => if is_space c then trim_start s' else s
  end.

Definition trim (s : string) : string :=
  String.string_of_list_ascii
    (rev (String.list_ascii_of_string
            (trim_start (String.string_of_list_ascii
               (rev (String.list_ascii_of_string (trim_start s))))))).

(** [addToHistory]'s updater. *)
Definition addToHistory_upd (item : HistoryItem) (prev : list HistoryItem)
  : list HistoryItem :=
  match find (fun i => String.eqb (h_id i) (h_id item)) prev with
  | Some _ => prev
  | None => item :: prev
  end.

Definition addToHistory (item : HistoryItem) : M unit :=
  setHistory (addToHistory_upd item).

(** [getVoiceForGender] *)
Definition getVoiceForGender (g : VoiceGender) : VoiceName :=
  match g with Female => Kore | Male => Puck end.

(** The cache entry of [prev[label]] with [imageUrl] replaced, as written by
    [{ ...prev[cat.label], imageUrl: img }]. The key is always present there:
    the same task wrote it before, and no code removes cache keys. *)
Definition with_image (img : option string) (e : CachedBriefing) : CachedBriefing :=
  mkCached (cb_id e) (cb_summary e) (cb_sources e) (cb_audioBuffer e) img
    (cb_status e) (cb_timestamp e).

Definition with_status (st : CacheStatus) (e : CachedBriefing) : CachedBriefing :=
  mkCached (cb_id e) (cb_summary e) (cb_sources e) (cb_audioBuffer e)
    (cb_imageUrl e) st (cb_timestamp e).

Definition attach_image (label : string) (img : option string)
    (prev : gmap string CachedBriefing) : gmap string CachedBriefing :=
  match prev !! label with
  | Some e => <[label := with_image img e]> prev
  | None => prev
  end.

Definition mark_error (label : string) (prev : gmap string CachedBriefing)
  : gmap string CachedBriefing :=
  match prev !! label with
  | Some e => <[label := with_status Failed e]> prev
  | None => prev
  end.

(** [targetArticles.filter(a => a.content.trim().length > 0)] *)
Definition validArticlesOf (targetArticles : list Article) : list Article :=
  filter (fun a => Nat.ltb 0 (String.length (trim (content a)))) targetArticles.

(** [reset], on the state modelled here (the source stop is the tracker's). *)
Definition reset : M unit :=
  setAppState IDLE ;; setSummary "" ;; setSources [] ;; setImageUrl None ;;
  modify (fun w =>
    mkWorld (articles w) (appState w) (summary w) (sources w) (imageUrl w)
      (selectedLanguage w) (selectedGender w) (errorMessage w) (cache w)
      (history w) None 0%Q (clock w) (calls w)).

(** [deleteHistoryItem]'s updater. *)
Definition deleteHistoryItem_upd (id : string) (prev : list HistoryItem)
  : list HistoryItem :=
  List.filter (fun i => negb (String.eqb (h_id i) id)) prev.

Definition deleteHistoryItem (id : string) : M unit :=
  setHistory (deleteHistoryItem_upd id).

(** [addArticle]: a blank search row at the end, id [Date.now().toString()]. *)
Definition addArticle : M unit :=
  now ← dateNow;
  prev ← gets articles;
  setArticles (prev ++ [mkArticle (pretty now) ASearch ""]).

(** [removeArticle]'s updater. *)
Definition removeArticle_upd (id : string) (prev : list Article) : list Article :=
  List.filter (fun a => negb (String.eqb (article_id a) id)) prev.




(** [loadHistoryItem]; of [pauseAudio] only its READY state is visible here
    (its commit and stop are the tracker's, and the offset is reset to 0
    right after), and [showHistory] is not modelled. *)
Definition loadHistoryItem (item : HistoryItem) : M unit :=
  st ← gets appState;
  (match st with PLAYING => setAppState READY | _ => mret () end) ;;
  setSummary (h_summary item) ;;
  setSources (h_sources item) ;;
  setImageUrl (h_imageUrl item) ;;
  loadBuffer (h_audioBuffer item) ;;
  setArticles [mkArticle "history" ASearch (h_topic item)] ;;
  setAppState READY.

Section Service.

(** The service's answers. A script response: its text and its grounding
    chunks [(web.uri, web.title)]. *)
Record ScriptResponse := mkResponse {
  resp_text : option string;
  resp_chunks : list (option string * option string) }.

Variable gemini_script : list Article -> Language -> ScriptResponse + string.
(** The TTS answer: the base64 audio payload, if any. *)
Variable gemini_tts : string -> VoiceName -> option string + string.
(** [decodeAudioData(base64ToBytes(data), ctx, 24000, 1)] (audioUtils). *)
Variable decode_audio : string -> AudioBuffer.
(** The image answer: the first inline part [(mimeType, data)], if any. *)
Variable gemini_image : string -> option (string * string) + string.

Definition grounding_sources
    (chunks : list (option string * option string)) : list GroundingSource :=
  omap (fun ch =>
          match ch with
          | (Some u, Some t) =>
              if truthy u && truthy t then Some (mkSource t u) else None
          | _ => None
          end) chunks.

Definition script_outcome (arts : list Article) (lang : Language)
    : BriefingResult + string :=
  match gemini_script arts lang with
  | inl r =>
      inl (mkResult
             (match resp_text r with
              | Some s => if truthy s then s else "I couldn't generate a summary."
              | None => "I couldn't generate a summary."
              end)
             (grounding_sources (resp_chunks r)))
  | inr e => inr e
  end.

(** [generateBriefingScript] *)
Definition generateBriefingScript (arts : list Article) (lang : Language)
    : M BriefingResult :=
  match arts with
  | [] => mret (mkResult "" [])
  | _ => remote (CallScript arts lang) (script_outcome arts lang)
  end.

Definition speech_outcome (text : string) (voice : VoiceName)
    : AudioBuffer + string :=
  match gemini_tts text voice with
  | inl (Some data) =>
      if truthy data then inl (decode_audio data)
      else inr "No audio data returned from Gemini."
  | inl None => inr "No audio data returned from Gemini."
  | inr e => inr e
  end.

(** [generateSpeech] *)
Definition generateSpeech (text : string) (voice : VoiceName) : M AudioBuffer :=
  remote (CallSpeech text voice) (speech_outcome text voice).

Definition image_prompt (summary : string) : string :=
  "Generate a high-quality, cinematic news illustration that visually represents this story: "
  +:+ String.substring 0 500 summary +:+ "...".

(** [generateCoverImage]: a failure is caught and yields [null]. *)
Definition generateCoverImage (summary : string) : M (option string) :=
  try_catch
    (r ← remote (CallImage (image_prompt summary))
            (gemini_image (image_prompt summary));
     mret (match r with
           | Some (mime, data) =>
               Some ("data:" +:+ mime +:+ ";base64," +:+ data)
           | None => None
           end))
    (fun _ => mret None).

(** The selected language and gender are read from the closure; the audio
    context resume and [initAudio] at the start touch no state modelled
    here. *)
Definition performGeneration (targetArticles : list Article) : M unit :=
  let validArticles := validArticlesOf targetArticles in
  match validArticles with
  | [] => setErrorMessage (Some "Please enter at least one search topic.")
  | _ =>
    setErrorMessage None ;;
    setAppState SUMMARIZING ;;
    setSummary "" ;;
    setSources [] ;;
    setImageUrl None ;;
    lang ← gets selectedLanguage;
    gender ← gets selectedGender;
    pending ← try_catch
      (result ← generateBriefingScript validArticles lang;
       setSummary (script result) ;;
       setSources (br_sources result) ;;
       setAppState SYNTHESIZING ;;
       let voiceName := getVoiceForGender gender in
       audioPromise ← launch (generateSpeech (script result) voiceName);
       imagePromise ← launch (generateCoverImage (script result));
       buffer ← await audioPromise;
       loadBuffer buffer ;;
       setAppState READY ;;
       mret (Some (result, buffer, imagePromise)))
      (fun err =>
         setErrorMessage
           (Some (if truthy err then err
                  else "Something went wrong while generating the briefing.")) ;;
         setAppState ERROR ;;
         mret None);
    (* imagePromise.then(...), run once the handler above has returned *)
    match pending with
    | None => mret ()
    | Some (result, buffer, imagePromise) =>
        generatedImage ← await imagePromise;
        setImageUrl generatedImage ;;
        let topic := String.concat ", " (map content validArticles) in
        now ← dateNow;
        addToHistory
          (mkHistory (pretty now) now
             (if Nat.ltb 50 (String.length topic)
              then String.substring 0 50 topic +:+ "..." else topic)
             (script result) (br_sources result) generatedImage buffer)
    end
  end.

Definition category_topic (label : string) : string :=
  "Top 5 recent " +:+ label +:+ " headlines".

(** [cachedData && cachedData.status === 'ready' && cachedData.audioBuffer] *)
Definition cache_hit (c : option CachedBriefing)
    : option (CachedBriefing * AudioBuffer) :=
  match c with
  | Some cd =>
      match cb_status cd, cb_audioBuffer cd with
      | Ready, Some buf => Some (cd, buf)
      | _, _ => None
      end
  | None => None
  end.

(** [handleCategorySelect]; the fallback's [performGeneration] is not
    awaited, and is run to its end here. *)
Definition handleCategorySelect (categoryLabel : string) : M unit :=
  cachedData ← gets (fun w => cache w !! categoryLabel);
  match cache_hit cachedData with
  | Some (cd, buf) =>
      setSummary (cb_summary cd) ;;
      setSources (cb_sources cd) ;;
      setImageUrl (cb_imageUrl cd) ;;
      loadBuffer buf ;;
      let topic := category_topic categoryLabel in
      setArticles [mkArticle "cached" ASearch topic] ;;
      now ← dateNow;
      addToHistory
        (mkHistory (categoryLabel +:+ "-" +:+ pretty (cb_timestamp cd)) now
           topic (cb_summary cd) (cb_sources cd) (cb_imageUrl cd) buf) ;;
      setAppState READY
  | None =>
      (match cachedData with
       | Some cd =>
           match cb_status cd with
           | Pending => setAppState SUMMARIZING
           | _ => mret ()
           end
       | None => mret ()
       end) ;;
      let topic := category_topic categoryLabel in
      now ← dateNow;
      let newArticle := mkArticle (pretty now) ASearch topic in
      setArticles [newArticle] ;;
      performGeneration [newArticle]
  end.

(** One category's task in [startPreFetching]. *)
Definition prefetchCategory (label : string) : M unit :=
  now ← dateNow;
  setCache (<[label := mkCached label "" [] None None Pending now]>) ;;
  pending ← try_catch
    (let topic := category_topic label in
     result ← generateBriefingScript [mkArticle "bg" ASearch topic] English;
     audioPromise ← launch (generateSpeech (script result)
                              (getVoiceForGender Female));
     imagePromise ← launch (generateCoverImage (script result));
     buffer ← await audioPromise;
     now' ← dateNow;
     setCache (<[label := mkCached label (script result) (br_sources result)
                            (Some buffer) None Ready now']>) ;;
     mret (Some imagePromise))
    (fun _ => setCache (mark_error label) ;; mret None);
  match pending with
  | Some imagePromise =>
      img ← await imagePromise;
      setCache (attach_image label img)
  | None => mret ()
  end.

End Service.
End App.

(* ================================================================= *)
(** ** Visualizer bars ([src/components/Visualizer.tsx]) *)

Module Visualizer.
Local Open Scope Q_scope.

Definition height : Q := 100.

(** [Math.round]: the nearest integer, halves rounded up. *)
Definition js_round (x : Q) : Z := Qfloor (x + (1#2)).

(** The [height] attribute of the bar of frequency byte [d]. *)
Definition bar_height (d : Z) : Q := Qmax 4 (inject_Z d / 255 * height).

(** The [y] attribute: the bar is centred vertically. *)
Definition bar_y (d : Z) : Q := (height - bar_height d) / 2.

(** [t = Math.min(1, (val / 255) * 1.5 + 0.2)] *)
Definition bar_t (d : Z) : Q := Qmin 1 (inject_Z d / 255 * (3#2) + (1#5)).

(** The [fill] colour's channels, interpolated from indigo to cyan. *)
Definition bar_fill (d : Z) : Z * Z * Z :=
  let t := bar_t d in
  (js_round (99 + (34 - 99) * t),
   js_round (102 + (211 - 102) * t),
   js_round (241 + (238 - 241) * t)).

End Visualizer.

(* ================================================================= *)
(** ** Terms used in the statements about the pipeline *)

Module AppSpec.
Import App.
Local Open Scope string_scope.

(** What [generateCoverImage] resolves to for the service's answer. *)
Definition cover_image_result
    (gemini_image : string -> option (string * string) + string)
    (summary : string) : option string :=
  match gemini_image (image_prompt summary) with
  | inl (Some (mime, data)) => Some ("data:" +:+ mime +:+ ";base64," +:+ data)
  | _ => None
  end.

(** The topic a generated briefing is filed under in the history. *)
Definition history_topic (arts : list Article) : string :=
  let topic := String.concat ", " (map content arts) in
  if Nat.ltb 50 (String.length topic)
  then String.substring 0 50 topic +:+ "..." else topic.

(** Nothing the user sees changes: only the cache and the requests may. *)
Definition same_view (w w' : World) : Prop :=
  articles w' = articles w /\ appState w' = appState w
  /\ summary w' = summary w /\ sources w' = sources w
  /\ imageUrl w' = imageUrl w /\ errorMessage w' = errorMessage w
  /\ history w' = history w /\ audioBufferRef w' = audioBufferRef w
  /\ savedBufferOffsetRef w' = savedBufferOffsetRef w.

(** Every character of [s] is white space. *)
Definition blank (s : string) : Prop :=
  Forall (fun c => is_space c = true) (String.list_ascii_of_string s).

End AppSpec.

(* ================================================================= *)
(** ** Concrete scenarios *)

Module Fixtures.
Import Tracker App.
Local Open Scope Q_scope.

(** A 10 s buffer played for 3 s at rate 1 and paused. *)
Definition paused_at_3 : Tracker :=
  run web_start_ok [Click; Wait 3; Click] (loaded 10).

(** The same buffer 3 s into playback. *)
Definition playing_from_0 : Tracker :=
  run web_start_ok [Click; Wait 3] (loaded 10).

(** A tracker whose saved offset 8 is stale for the 5 s buffer now loaded,
    with an engine that refuses offsets past the end. *)
Definition stale : Tracker := mkTracker true 0 (Some 5) 8 0 1 false None 0 [] [].
Definition strict_start (offset duration : Q) : bool :=
  Qle_bool 0 offset && Qle_bool offset duration.

Local Open Scope string_scope.

(** A service that answers the script request, rejects the speech request,
    or answers it, and fails the image request. *)
Definition buf1 : AudioBuffer := mkAudioBuffer 240000 24000 1.
Definition svc_script (a : list Article) (l : Language) : ScriptResponse + string :=
  inl (mkResponse (Some "Here are your top 5 stories.")
         [(Some "https://example.org/a", Some "A")]).
Definition svc_tts_down (t : string) (v : VoiceName) : option string + string :=
  inr "quota exceeded".
Definition svc_decode (data : string) : AudioBuffer := buf1.
Definition svc_image_down (p : string) : option (string * string) + string :=
  inr "image model unavailable".

(** The app after the Tech category was prefetched (ready, image pending). *)
Definition tech_entry : CachedBriefing :=
  mkCached "Tech" "Tech news" [] (Some buf1) None Ready 1000.
Definition start_world : World :=
  mkWorld [] IDLE "" [] None English Female None
    (<["Tech" := tech_entry]> ∅) [] None 0 5000 [].

Definition select_tech (w : World) : World :=
  snd (handleCategorySelect svc_script svc_tts_down svc_decode svc_image_down
         "Tech" w).

(** Select Tech, go back with [reset], select Tech again. *)
Definition tech_once : World := select_tech start_world.
Definition tech_back : World := snd (reset tech_once).
Definition tech_twice : World := select_tech tech_back.

(** A history holding one item. *)
Definition item1 : HistoryItem :=
  mkHistory "1" 1 "ai" "s" [] None buf1.
Definition item2 : HistoryItem :=
  mkHistory "2" 2 "ai" "t" [] None buf1.

(** Further service answers: speech that succeeds, speech with an empty
    payload, and a script request that fails. *)
Definition svc_tts_ok (t : string) (v : VoiceName) : option string + string :=
  inl (Some "UklGRiQAAABXQVZF").
Definition svc_tts_empty (t : string) (v : VoiceName) : option string + string :=
  inl (Some "").
Definition svc_script_down (a : list Article) (l : Language)
  : ScriptResponse + string := inr "".

(** A 500 character script. *)
Definition long_text : string := String.concat "" (List.repeat "0123456789" 50).

(** The app with one search row filled in. *)
Definition rows_world : World :=
  mkWorld [mkArticle "1" ASearch "ai"] IDLE "" [] None English Female None
    ∅ [] None 0 5000 [].

End Fixtures.

(* ================================================================= *)
(** ** Tracker lemmas *)

Module TrackerFacts.
Import Tracker.
Local Open Scope Q_scope.

(** Offset non-negative, segment start not in the future, rate
    non-negative. *)
Definition nonneg_inv (t : Tracker) : Prop :=
  0 <= savedBufferOffset t /\ segmentStartTime t <= now t
  /\ 0 <= playbackRate t.

(** The bound for a buffer of duration [d]. *)
Definition bound_inv (d : Q) (t : Tracker) : Prop :=
  nonneg_inv t /\ buffer t = Some d /\ savedBufferOffset t <= d
  /\ (playing t = true ->
      ctx_present t = true /\ sourceNode t <> None /\ position t <= d).

Lemma commit_fields rate t :
  ctx_present t = true ->
  savedBufferOffset (commitProgress rate t)
    = savedBufferOffset t + (now t - segmentStartTime t) * rate
  /\ segmentStartTime (commitProgress rate t) = now t
  /\ now (commitProgress rate t) = now t
  /\ buffer (commitProgress rate t) = buffer t
  /\ playbackRate (commitProgress rate t) = playbackRate t
  /\ playing (commitProgress rate t) = playing t
  /\ sourceNode (commitProgress rate t) = sourceNode t
  /\ ctx_present (commitProgress rate t) = ctx_present t
  /\ handlers (commitProgress rate t) = handlers t.
Proof. intros H. unfold commitProgress. rewrite H. done. Qed.

Lemma commit_no_ctx rate t :
  ctx_present t = false -> commitProgress rate t = t.
Proof. intros H. unfold commitProgress. by rewrite H. Qed.

Lemma mult_nonneg (a b : Q) : 0 <= a -> 0 <= b -> 0 <= a * b.
Proof. apply Qmult_le_0_compat. Qed.

Lemma step_nonneg (start_ok : Q -> Q -> bool) e t :
  nonneg_inv t -> valid_event e = true -> nonneg_inv (step start_ok e t).
Proof.
  unfold nonneg_inv. intros (H1 & H2 & H3) Hv.
  pose proof (mult_nonneg (now t - segmentStartTime t) (playbackRate t)) as Hm.
  destruct e as [dt| |r|src]; simpl in Hv |- *.
  - apply Qle_bool_iff in Hv. simpl. lra.
  - destruct (playing t).
    + unfold pauseAudio. destruct (sourceNode t) as [src|]; [|lra].
      destruct (ctx_present t) eqn:Hc; [|lra].
      destruct (commit_fields (playbackRate t) t Hc)
        as (E1 & E2 & E3 & _ & E5 & _).
      simpl. rewrite E1, E2, E3, E5. lra.
    + unfold playAudio. destruct (buffer t) as [d|]; [|lra].
      destruct (ctx_present t); simpl; [|lra].
      destruct (start_ok (Qmax 0 (savedBufferOffset t)) d); simpl; [lra|].
      destruct (start_ok 0 d); simpl; lra.
  - apply andb_prop in Hv as [Ha Hb]. apply Qle_bool_iff in Ha, Hb.
    unfold handleRateChange.
    destruct (sourceNode t) as [src|]; [|simpl; lra].
    destruct (playing t); [|simpl; lra].
    destruct (ctx_present t) eqn:Hc.
    + destruct (commit_fields (playbackRate t) t Hc)
        as (E1 & E2 & E3 & _ & E5 & _).
      simpl. rewrite E1, E2, E3. lra.
    + rewrite commit_no_ctx by done. simpl. lra.
  - unfold onended. destruct (in_dec _ _ _); simpl; lra.
Qed.

Lemma run_nonneg (start_ok : Q -> Q -> bool) es t :
  nonneg_inv t -> valid_run es = true -> nonneg_inv (run start_ok es t).
Proof.
  revert t. induction es as [|e es IH]; intros t Ht Hv; simpl in *; [done|].
  apply andb_prop in Hv as [He Hes].
  apply IH; [apply step_nonneg|]; assumption.
Qed.

Lemma step_bound (start_ok : Q -> Q -> bool) d e t :
  bound_inv d t -> valid_event e = true -> timely e t = true ->
  bound_inv d (step start_ok e t).
Proof.
  intros Hb Hv Ht. pose proof Hb as (Hn & Hbuf & Hle & Hpl).
  pose proof (step_nonneg start_ok e t Hn Hv) as Hn'.
  destruct Hn as (H1 & H2 & H3).
  unfold bound_inv, position in *.
  destruct e as [dt| |r|src]; simpl in Hv, Ht |- *; split; try exact Hn'.
  - rewrite Hbuf in Ht. split; [done|]. split; [done|].
    intros Hp. rewrite Hp in Ht. simpl in Ht. apply Qle_bool_iff in Ht.
    destruct (Hpl Hp) as (Hc & Hs & _). repeat split; try done.
  - destruct (playing t) eqn:Hp.
    + destruct (Hpl eq_refl) as (Hc & Hs & Hpos).
      unfold pauseAudio. destruct (sourceNode t) as [src|]; [|done].
      rewrite Hc.
      destruct (commit_fields (playbackRate t) t Hc)
        as (E1 & E2 & E3 & E4 & E5 & E6 & E7 & E8 & E9).
      simpl. rewrite E1, E4. repeat split; try done; try lra; try (intros; discriminate).
    + unfold playAudio. rewrite Hbuf.
      destruct (ctx_present t) eqn:Hc; simpl; [|rewrite Hbuf, Hp; done].
      destruct (start_ok (Qmax 0 (savedBufferOffset t)) d); simpl.
      * repeat split; try done; try lra.
      * destruct (start_ok 0 d); simpl.
        -- repeat split; try done; try lra.
        -- rewrite Hp. repeat split; try done; lra.
  - unfold handleRateChange.
    destruct (sourceNode t) as [src|] eqn:Hs.
    + destruct (playing t) eqn:Hp.
      * destruct (Hpl eq_refl) as (Hc & _ & Hpos).
        destruct (commit_fields (playbackRate t) t Hc)
          as (E1 & E2 & E3 & E4 & E5 & E6 & E7 & E8 & E9).
        simpl. rewrite E1, E2, E3, E4, E6, E7, E8, Hs.
        repeat split; try done; try lra.
      * simpl. rewrite Hbuf, Hp. repeat split; try done.
    + simpl. rewrite Hbuf. split; [done|]. split; [done|].
      intros Hp. destruct (Hpl Hp) as (_ & Hs' & _). congruence.
  - unfold onended. destruct (in_dec _ _ _); simpl.
    + repeat split; try done; try lra; intros; discriminate.
    + exact (proj2 Hb).
Qed.

Lemma run_bound (start_ok : Q -> Q -> bool) d es t :
  bound_inv d t -> valid_run es = true -> timely_run start_ok es t = true ->
  bound_inv d (run start_ok es t).
Proof.
  revert t. induction es as [|e es IH]; intros t Ht Hv Htm; simpl in *; [done|].
  apply andb_prop in Hv as [He Hes]. apply andb_prop in Htm as [Hte Htes].
  apply IH; [apply step_bound|..]; assumption.
Qed.

Lemma loaded_bound d : 0 <= d -> bound_inv d (loaded d).
Proof.
  intros Hd. unfold bound_inv, nonneg_inv; simpl.
  repeat split; try done; lra.
Qed.

End TrackerFacts.

(* ================================================================= *)
(** ** Tracker claims *)

Module TrackerClaims.
Import Tracker TrackerFacts.
Local Open Scope Q_scope.

(** C1: [commitProgress(rate)] with an audio context advances the saved
    offset by the audio-clock time since the segment start, scaled by
    [rate], and restarts the segment at [now]; on a 10 s buffer played by
    the Web Audio engine, 3 s at rate 1 then pause gives 3, and resuming at
    rate 2 for 2 s then pausing gives 7. *)
Theorem commit_advances_by_scaled_elapsed (rate : Q) (t : Tracker) (Hctx : ctx_present t = true) :
  savedBufferOffset (commitProgress rate t)
    = savedBufferOffset t + (now t - segmentStartTime t) * rate
  /\ segmentStartTime (commitProgress rate t) = now t
  /\ (let t1 := run web_start_ok [Click; Wait 3; Click] (loaded 10) in
      savedBufferOffset t1 == 3
      /\ savedBufferOffset
           (run web_start_ok [SetRate 2; Click; Wait 2; Click] t1) == 7).
Proof.
  destruct (commit_fields rate t Hctx) as (E1 & E2 & _).
  split; [exact E1|]. split; [exact E2|].
  split; vm_compute; reflexivity.
Qed.

(** C2 (as amended): over any sequence of UI events on a loaded buffer of
    duration [d], the saved offset never goes negative; it stays at most
    [d] when, in addition, the engine runs the source's [onended] handler
    before the clock carries a playing source past the end of the buffer.
    Nothing in the tracker clamps the offset to the duration. *)
Theorem saved_offset_bounds (start_ok : Q -> Q -> bool) (d : Q)
  (es : list Event) (Hd : 0 <= d) (Hv : valid_run es = true) :
  0 <= savedBufferOffset (run start_ok es (loaded d))
  /\ (timely_run start_ok es (loaded d) = true ->
      savedBufferOffset (run start_ok es (loaded d)) <= d).
Proof.
  split.
  - destruct (run_nonneg start_ok es (loaded d)) as (H & _); try done.
    all: try (unfold nonneg_inv; simpl; repeat split; lra).
  - intros Ht. destruct (run_bound start_ok d es (loaded d)) as (_ & _ & H & _);
      try done.
    all: try (by apply loaded_bound).
Qed.

(** C2 counterexample: play a 10 s buffer at rate 1 and click pause 10 ms
    after it ran out, before the engine's [ended] task has been run: the
    saved offset is 10.01, past the duration. *)
Lemma saved_offset_exceeds_duration :
  valid_run [Click; Wait (1001 # 100); Click] = true
  /\ 10 < savedBufferOffset
            (run web_start_ok [Click; Wait (1001 # 100); Click] (loaded 10)).
Proof. split; vm_compute; reflexivity. Qed.

(** C5: [pauseAudio] on a live source commits under the current rate, then
    detaches [onended], stops and disconnects the source (in that order in
    the code), leaves the PLAYING state, and the [ended] event caused by
    the stop no longer changes anything: the committed offset stays. *)
Theorem pause_commits_and_detaches (t : Tracker) (src : nat)
  (Hsrc : sourceNode t = Some src) (Hctx : ctx_present t = true) :
  let t' := pauseAudio t in
  log t' = log t ++ [Committed ((now t - segmentStartTime t) * playbackRate t);
                     Detached src; Stopped src; Disconnected src]
  /\ savedBufferOffset t'
       = savedBufferOffset t + (now t - segmentStartTime t) * playbackRate t
  /\ playing t' = false
  /\ onended src t' = t'.
Proof.
  simpl. unfold pauseAudio. rewrite Hsrc, Hctx.
  unfold commitProgress. rewrite Hctx. simpl.
  split; [by rewrite <- !app_assoc|].
  split; [done|]. split; [done|].
  unfold onended. simpl.
  destruct (in_dec _ _ _) as [Hin|]; [|done].
  exfalso. by apply (remove_In Nat.eq_dec (handlers t) src).
Qed.

(** C6: when [source.start] throws at the saved offset, [playAudio] sets the
    saved offset to 0 and starts the same source at offset 0. *)
Theorem play_falls_back_to_zero (start_ok : Q -> Q -> bool) (t : Tracker)
  (d : Q) (Hbuf : buffer t = Some d) (Hctx : ctx_present t = true)
  (Hfail : start_ok (Qmax 0 (savedBufferOffset t)) d = false)
  (Hzero : start_ok 0 d = true) :
  let t' := playAudio start_ok t in
  savedBufferOffset t' = 0
  /\ log t' = log t ++ [StartFailed (next_source t)
                          (Qmax 0 (savedBufferOffset t));
                        Started (next_source t) 0]
  /\ playing t' = true
  /\ sourceNode t' = Some (next_source t)
  /\ segmentStartTime t' = now t.
Proof.
  simpl. unfold playAudio. rewrite Hbuf, Hctx. simpl.
  rewrite Hfail, Hzero. simpl.
  repeat split; try done. by rewrite <- app_assoc.
Qed.

(** C7: while not PLAYING, [handleRateChange] only stores the new rate. *)
Theorem rate_change_paused_keeps_offset (r : Q) (t : Tracker)
  (Hp : playing t = false) :
  handleRateChange r t = set_rate r t
  /\ savedBufferOffset (handleRateChange r t) = savedBufferOffset t
  /\ playbackRate (handleRateChange r t) = r.
Proof.
  unfold handleRateChange. rewrite Hp.
  destruct (sourceNode t); repeat split.
Qed.

End TrackerClaims.

Module TrackerWitnesses.
Import Tracker TrackerClaims Fixtures.
Local Open Scope Q_scope.

Lemma commit_advances_by_scaled_elapsed_witness :
  ctx_present paused_at_3 = true
  /\ savedBufferOffset (commitProgress 2 paused_at_3)
       = savedBufferOffset paused_at_3
         + (now paused_at_3 - segmentStartTime paused_at_3) * 2.
Proof.
  split; [reflexivity|].
  apply (commit_advances_by_scaled_elapsed 2 paused_at_3). reflexivity.
Defined.

Lemma saved_offset_bounds_witness :
  0 <= 10 /\ valid_run [Click; Wait 3; Click] = true
  /\ 0 <= savedBufferOffset (run web_start_ok [Click; Wait 3; Click] (loaded 10)).
Proof.
  split; [apply Qle_bool_iff; reflexivity|]. split; [reflexivity|].
  refine (proj1 (saved_offset_bounds web_start_ok 10 [Click; Wait 3; Click]
                   _ _)); [apply Qle_bool_iff|]; reflexivity.
Defined.

Lemma pause_commits_and_detaches_witness :
  sourceNode playing_from_0 = Some 0%nat /\ ctx_present playing_from_0 = true
  /\ playing (pauseAudio playing_from_0) = false.
Proof.
  split; [reflexivity|]. split; [reflexivity|].
  apply (pause_commits_and_detaches playing_from_0 0%nat); reflexivity.
Defined.

Lemma play_falls_back_to_zero_witness :
  strict_start (Qmax 0 8) 5 = false /\ strict_start 0 5 = true
  /\ savedBufferOffset (playAudio strict_start stale) = 0.
Proof.
  split; [reflexivity|]. split; [reflexivity|].
  apply (play_falls_back_to_zero strict_start stale 5); reflexivity.
Defined.

Lemma rate_change_paused_keeps_offset_witness :
  playing paused_at_3 = false
  /\ savedBufferOffset (handleRateChange 2 paused_at_3)
     = savedBufferOffset paused_at_3.
Proof.
  split; [reflexivity|].
  apply (rate_change_paused_keeps_offset 2 paused_at_3). reflexivity.
Defined.

End TrackerWitnesses.

(* ================================================================= *)
(** ** Cache, history and pipeline claims *)

Module AppClaims.
Import App.
Local Open Scope string_scope.

Ltac run_monad :=
  cbv beta iota zeta delta [mbind M_bind mret M_ret setSummary setSources
    setImageUrl setErrorMessage setAppState setArticles setHistory setCache
    loadBuffer modify gets dateNow addToHistory remote launch await throw
    try_catch generateBriefingScript generateSpeech generateCoverImage
    articles appState summary sources imageUrl selectedLanguage
    selectedGender errorMessage cache history audioBufferRef
    savedBufferOffsetRef clock calls fst snd].

Lemma bind_gets {A B} (f : World -> A) (k : A -> M B) (w : World) :
  (x ← gets f; k x) w = k (f w) w.
Proof. reflexivity. Qed.

(** The history record a cache hit on [label] inserts. *)
Definition hit_record (label : string) (cd : CachedBriefing) (buf : AudioBuffer)
    (now : Z) : HistoryItem :=
  mkHistory (label +:+ "-" +:+ pretty (cb_timestamp cd)) now
    (category_topic label) (cb_summary cd) (cb_sources cd) (cb_imageUrl cd) buf.

(** C3 (as amended): selecting a category whose cache entry is ready with an
    audio buffer issues no request, adopts the entry's script, sources,
    image (null or not) and audio, rewinds to offset 0, ends READY, and
    inserts the record [label-timestamp] into the history unless a record
    with that id is already there. *)
Theorem category_hit_adopts_entry
  gemini_script gemini_tts decode_audio gemini_image
  (label : string) (w : World) (cd : CachedBriefing) (buf : AudioBuffer)
  (Hc : cache w !! label = Some cd) (Hs : cb_status cd = Ready)
  (Hb : cb_audioBuffer cd = Some buf) :
  let '(r, w') := handleCategorySelect gemini_script gemini_tts decode_audio
                    gemini_image label w in
  r = inl ()
  /\ calls w' = calls w
  /\ summary w' = cb_summary cd
  /\ sources w' = cb_sources cd
  /\ imageUrl w' = cb_imageUrl cd
  /\ audioBufferRef w' = Some buf
  /\ savedBufferOffsetRef w' = 0%Q
  /\ appState w' = READY
  /\ history w' = addToHistory_upd (hit_record label cd buf (clock w)) (history w).
Proof.
  destruct w. unfold handleCategorySelect. rewrite bind_gets, Hc.
  unfold cache_hit. rewrite Hs, Hb. run_monad. repeat split.
Qed.

(** C4: when the script request succeeds and the speech request fails, the
    pipeline ends in ERROR with the failure's message (the fixed fallback
    text when the message is empty), adds no history record and leaves the
    audio buffer ref as it was. *)
Theorem speech_failure_sets_error
  gemini_script gemini_tts decode_audio gemini_image
  (arts : list Article) (w : World) (res : BriefingResult) (msg : string)
  (Hv : validArticlesOf arts <> [])
  (Hs : script_outcome gemini_script (validArticlesOf arts)
          (selectedLanguage w) = inl res)
  (Ht : speech_outcome gemini_tts decode_audio (script res)
          (getVoiceForGender (selectedGender w)) = inr msg) :
  let '(_, w') := performGeneration gemini_script gemini_tts decode_audio
                    gemini_image arts w in
  appState w' = ERROR
  /\ errorMessage w' =
       Some (if truthy msg then msg
             else "Something went wrong while generating the briefing.")
  /\ history w' = history w
  /\ audioBufferRef w' = audioBufferRef w.
Proof.
  destruct w. cbn [selectedLanguage selectedGender] in Hs, Ht.
  unfold performGeneration.
  destruct (validArticlesOf arts) as [|a rest] eqn:E; [contradiction|].
  run_monad. rewrite Hs. run_monad. rewrite Ht. run_monad.
  (* the image request was issued too; its outcome does not matter *)
  destruct (gemini_image _) as [[[mime data]|]|e]; run_monad; repeat split.
Qed.

(** C8: attaching the resolved image to a ready entry changes only its
    [imageUrl]: the status stays ready, every other field and every other
    key is unchanged. *)
Theorem attach_image_only_sets_image (label : string) (img : option string)
  (c : gmap string CachedBriefing) (e : CachedBriefing)
  (He : c !! label = Some e) (Hr : cb_status e = Ready) :
  attach_image label img c !! label
    = Some (mkCached (cb_id e) (cb_summary e) (cb_sources e)
              (cb_audioBuffer e) img Ready (cb_timestamp e))
  /\ (forall k, k <> label -> attach_image label img c !! k = c !! k).
Proof.
  unfold attach_image. rewrite He. split.
  - rewrite lookup_insert_eq. unfold with_image. by rewrite Hr.
  - intros k Hk. by rewrite lookup_insert_ne.
Qed.

(** C9: inserting an item whose id is already in the history leaves the
    list unchanged; an item with a fresh id goes to the front. *)
Theorem history_insert_dedup (item : HistoryItem) (l : list HistoryItem) :
  (Exists (fun i => h_id i = h_id item) l -> addToHistory_upd item l = l)
  /\ (Forall (fun i => h_id i <> h_id item) l ->
      addToHistory_upd item l = item :: l).
Proof.
  unfold addToHistory_upd. split; intros H.
  - destruct (find _ l) eqn:F; [done|].
    exfalso. apply Exists_exists in H as (x & Hx & Hid).
    apply list_elem_of_In in Hx.
    pose proof (find_none _ _ F x Hx) as Hn. simpl in Hn.
    rewrite Hid, String.eqb_refl in Hn. discriminate.
  - destruct (find _ l) eqn:F; [|done].
    apply find_some in F as (Hin & Heq). apply String.eqb_eq in Heq.
    rewrite Forall_forall in H. apply list_elem_of_In in Hin.
    by destruct (H h Hin).
Qed.

(** C10: [generateBriefingScript []] resolves to an empty script with no
    sources and issues no request. *)
Theorem briefing_script_empty gemini_script (lang : Language) (w : World) :
  generateBriefingScript gemini_script [] lang w = (inl (mkResult "" []), w).
Proof. reflexivity. Qed.

End AppClaims.

Module AppWitnesses.
Import App AppClaims Fixtures.
Local Open Scope string_scope.

(** C3 counterexample: selecting the ready Tech entry a second time (after
    going back with [reset]) inserts no history record: the record
    [Tech-1000] from the first selection already has that id. *)
Lemma reselect_adds_no_history :
  cache tech_back !! "Tech" = Some tech_entry
  /\ cb_status tech_entry = Ready
  /\ length (history tech_back) = 1%nat
  /\ history tech_twice = history tech_back.
Proof. vm_compute. repeat split. Qed.

Lemma category_hit_adopts_entry_witness :
  cache start_world !! "Tech" = Some tech_entry
  /\ appState tech_once = READY.
Proof.
  split; [reflexivity|].
  pose proof (category_hit_adopts_entry svc_script svc_tts_down svc_decode
                svc_image_down "Tech" start_world tech_entry buf1
                eq_refl eq_refl eq_refl) as H.
  unfold tech_once, select_tech.
  destruct (handleCategorySelect _ _ _ _ "Tech" start_world) as [r w'].
  simpl. apply H.
Defined.

Lemma speech_failure_sets_error_witness :
  appState (snd (performGeneration svc_script svc_tts_down svc_decode
                   svc_image_down [mkArticle "1" ASearch "ai"] start_world))
  = ERROR.
Proof.
  pose proof (speech_failure_sets_error svc_script svc_tts_down svc_decode
                svc_image_down [mkArticle "1" ASearch "ai"] start_world
                (mkResult "Here are your top 5 stories."
                   [mkSource "A" "https://example.org/a"])
                "quota exceeded") as H.
  destruct (performGeneration _ _ _ _ _ start_world) as [r w'].
  simpl. apply H; [discriminate|reflexivity|reflexivity].
Defined.

Lemma attach_image_only_sets_image_witness :
  attach_image "Tech" (Some "data:image/png;base64,AA")
    (cache start_world) !! "Tech"
  = Some (mkCached "Tech" "Tech news" [] (Some buf1)
            (Some "data:image/png;base64,AA") Ready 1000).
Proof.
  apply (attach_image_only_sets_image "Tech" (Some "data:image/png;base64,AA")
           (cache start_world) tech_entry); reflexivity.
Defined.

Lemma history_insert_dedup_witness :
  addToHistory_upd item1 [item2; item1] = [item2; item1]
  /\ addToHistory_upd item1 [item2] = [item1; item2].
Proof.
  split.
  - apply (history_insert_dedup item1 [item2; item1]).
    right. left. reflexivity.
  - apply (history_insert_dedup item1 [item2]).
    constructor; [discriminate|constructor].
Defined.

End AppWitnesses.

(* ================================================================= *)
(** ** History and article list handlers *)

Module ListExtras.
Import App AppSpec.
Local Open Scope string_scope.

(** Deleting the history item [id] removes every item with that id and
    keeps all the others, in their order. *)
Theorem delete_history_exact (id : string) (l : list HistoryItem) :
  Forall (fun i => h_id i <> id) (deleteHistoryItem_upd id l)
  /\ (forall i, In i l -> h_id i <> id -> In i (deleteHistoryItem_upd id l))
  /\ (forall i, In i (deleteHistoryItem_upd id l) -> In i l).
Proof.
  unfold deleteHistoryItem_upd. split; [|split].
  - apply Forall_forall. intros i Hi. apply list_elem_of_In in Hi.
    apply filter_In in Hi as [_ Hi]. apply negb_true_iff, String.eqb_neq in Hi.
    exact Hi.
  - intros i Hi Hne. apply filter_In. split; [done|].
    apply negb_true_iff, String.eqb_neq. exact Hne.
  - intros i Hi. by apply filter_In in Hi as [Hi _].
Qed.

Lemma delete_absent (id : string) (l : list HistoryItem) :
  Forall (fun i => h_id i <> id) l -> deleteHistoryItem_upd id l = l.
Proof.
  induction 1 as [|i l Hi _ IH]; [done|].
  unfold deleteHistoryItem_upd in *. simpl.
  apply String.eqb_neq in Hi. rewrite Hi. simpl. by rewrite IH.
Qed.

(** Adding a briefing with a fresh id to the history and then deleting that
    id gives back the history as it was. *)
Theorem add_then_delete_history (item : HistoryItem) (l : list HistoryItem)
  (Hfresh : Forall (fun i => h_id i <> h_id item) l) :
  deleteHistoryItem_upd (h_id item) (addToHistory_upd item l) = l.
Proof.
  unfold addToHistory_upd.
  destruct (find _ l) eqn:F.
  - apply find_some in F as (Hin & Heq). apply String.eqb_eq in Heq.
    rewrite Forall_forall in Hfresh. apply list_elem_of_In in Hin.
    by destruct (Hfresh h Hin).
  - unfold deleteHistoryItem_upd. simpl. rewrite String.eqb_refl. simpl.
    apply delete_absent, Hfresh.
Qed.

(** The history never holds two items with the same id: inserting keeps
    the ids pairwise distinct. *)
Theorem add_history_keeps_ids_distinct (item : HistoryItem) (l : list HistoryItem)
  (Hnd : NoDup (map h_id l)) :
  NoDup (map h_id (addToHistory_upd item l)).
Proof.
  unfold addToHistory_upd.
  destruct (find _ l) eqn:F; [done|].
  simpl. constructor; [|done].
  intros Hin. apply list_elem_of_In, in_map_iff in Hin as (x & Hx & Hxl).
  pose proof (find_none _ _ F x Hxl) as Hn. simpl in Hn.
  rewrite <- Hx, String.eqb_refl in Hn. discriminate.
Qed.


End ListExtras.

(* ================================================================= *)
(** ** [trim] and the articles kept by [performGeneration] *)

Module TrimExtras.
Import App AppSpec.
Local Open Scope string_scope.

Lemma trim_start_split (s : string) :
  exists pre, String.list_ascii_of_string s
              = (pre ++ String.list_ascii_of_string (trim_start s))%list
    /\ Forall (fun c => is_space c = true) pre.
Proof.
  induction s as [|c s IH]; simpl.
  - by exists [].
  - destruct (is_space c) eqn:E.
    + destruct IH as (pre & H1 & H2). exists (c :: pre).
      simpl. rewrite H1. split; [done|by constructor].
    + by exists [].
Qed.

Lemma trim_start_blank (s : string) : blank s -> trim_start s = "".
Proof.
  unfold blank. induction s as [|c s IH]; simpl; [done|].
  intros H. inversion H as [|? ? Hc Hs]; subst. rewrite Hc. by apply IH.
Qed.

Lemma blank_trim_start (s : string) : trim_start s = "" -> blank s.
Proof.
  intros H. destruct (trim_start_split s) as (pre & H1 & H2).
  unfold blank. rewrite H1, H. simpl. by rewrite app_nil_r.
Qed.

Lemma trim_empty_blank (s : string) : trim s = "" <-> blank s.
Proof.
  split.
  - intros H. unfold trim in H.
    set (X := String.string_of_list_ascii
                (rev (String.list_ascii_of_string (trim_start s)))) in H.
    assert (HL : String.list_ascii_of_string (trim_start X) = []).
    { apply (f_equal String.list_ascii_of_string) in H.
      rewrite String.list_ascii_of_string_of_list_ascii in H.
      simpl in H. by apply (f_equal (@rev _)) in H; rewrite rev_involutive in H. }
    assert (HX : trim_start X = "").
    { rewrite <- (String.string_of_list_ascii_of_string (trim_start X)), HL.
      reflexivity. }
    apply blank_trim_start in HX. unfold blank, X in HX.
    rewrite String.list_ascii_of_string_of_list_ascii in HX.
    apply Forall_rev in HX. rewrite rev_involutive in HX.
    destruct (trim_start_split s) as (pre & H1 & H2).
    unfold blank. rewrite H1. apply Forall_app. split; assumption.
  - intros H. unfold trim. rewrite (trim_start_blank s H). reflexivity.
Qed.

Lemma trim_length_pos (s : string) :
  Nat.ltb 0 (String.length (trim s)) = true <-> ~ blank s.
Proof.
  rewrite <- trim_empty_blank. rewrite Nat.ltb_lt.
  destruct (trim s); simpl; split; intros H; try done; lia.
Qed.

Lemma valid_articles_mem (l : list Article) (a : Article) :
  a ∈ validArticlesOf l <-> a ∈ l /\ ~ blank (content a).
Proof.
  unfold validArticlesOf. rewrite list_elem_of_filter.
  pose proof (trim_length_pos (content a)) as Hp.
  try rewrite Is_true_true. try unfold is_true. rewrite Hp. tauto.
Qed.

Lemma valid_articles_nil (l : list Article) :
  Forall (fun a => blank (content a)) l -> validArticlesOf l = [].
Proof.
  intros H. destruct (validArticlesOf l) as [|a rest] eqn:E; [done|].
  assert (Ha : a ∈ validArticlesOf l) by (rewrite E; left).
  apply valid_articles_mem in Ha as [Hin Hnb].
  rewrite Forall_forall in H. by destruct (Hnb (H a Hin)).
Qed.

Lemma valid_articles_single (a : Article) :
  ~ blank (content a) -> validArticlesOf [a] = [a].
Proof.
  intros H. unfold validArticlesOf. rewrite filter_cons_True; [done|].
  try rewrite Is_true_true. by apply trim_length_pos.
Qed.

Lemma valid_articles_app (l1 l2 : list Article) :
  validArticlesOf (l1 ++ l2)%list = (validArticlesOf l1 ++ validArticlesOf l2)%list.
Proof. unfold validArticlesOf. apply filter_app. Qed.



End TrimExtras.

(* ================================================================= *)
(** ** Generation pipeline, service wrappers and prefetching *)

Module PipelineExtras.
Import App AppSpec TrimExtras.
Local Open Scope string_scope.

Ltac run_app :=
  cbv beta iota zeta delta [mbind M_bind mret M_ret setSummary setSources
    setImageUrl setErrorMessage setAppState setArticles setHistory setCache
    loadBuffer modify gets dateNow addToHistory remote launch await throw
    try_catch generateBriefingScript generateSpeech generateCoverImage
    loadHistoryItem addArticle reset
    articles appState summary sources imageUrl selectedLanguage
    selectedGender errorMessage cache history audioBufferRef
    savedBufferOffsetRef clock calls fst snd].

Lemma gets_bind {A B} (f : World -> A) (k : A -> M B) (w : World) :
  (x ← gets f; k x) w = k (f w) w.
Proof. reflexivity. Qed.


Lemma generation_success_run gemini_script gemini_tts decode_audio
  gemini_image (arts : list Article) (w : World) (res : BriefingResult)
  (buf : AudioBuffer)
  (Hv : validArticlesOf arts <> [])
  (Hs : script_outcome gemini_script (validArticlesOf arts)
          (selectedLanguage w) = inl res)
  (Ht : speech_outcome gemini_tts decode_audio (script res)
          (getVoiceForGender (selectedGender w)) = inl buf) :
  let '(r, w') := performGeneration gemini_script gemini_tts decode_audio
                    gemini_image arts w in
  r = inl ()
  /\ appState w' = READY
  /\ errorMessage w' = None
  /\ summary w' = script res
  /\ sources w' = br_sources res
  /\ imageUrl w' = cover_image_result gemini_image (script res)
  /\ audioBufferRef w' = Some buf
  /\ savedBufferOffsetRef w' = 0%Q
  /\ calls w' = (calls w ++ [CallScript (validArticlesOf arts) (selectedLanguage w);
                             CallSpeech (script res)
                               (getVoiceForGender (selectedGender w));
                             CallImage (image_prompt (script res))])%list
  /\ history w' =
       addToHistory_upd
         (mkHistory (pretty (clock w)) (clock w)
            (history_topic (validArticlesOf arts)) (script res)
            (br_sources res) (cover_image_result gemini_image (script res)) buf)
         (history w).
Proof.
  destruct w. cbn [selectedLanguage selectedGender] in Hs, Ht.
  unfold performGeneration, cover_image_result, history_topic.
  destruct (validArticlesOf arts) as [|a rest] eqn:E; [contradiction|].
  run_app. rewrite Hs. run_app. rewrite Ht. run_app.
  destruct (gemini_image _) as [[[mime data]|]|e]; run_app;
    rewrite <- ?app_assoc; repeat split.
Qed.

(** A generation whose script and speech requests succeed ends READY with
    the script, its sources and the decoded audio from offset 0, clears the
    error, issues exactly the script, speech and image requests, shows the
    cover image ([null] when the image request failed), and files the
    briefing in the history under [Date.now()] with the same image. *)
Theorem generation_success gemini_script gemini_tts decode_audio
  gemini_image (arts : list Article) (w : World) (res : BriefingResult)
  (buf : AudioBuffer)
  (Hv : validArticlesOf arts <> [])
  (Hs : script_outcome gemini_script (validArticlesOf arts)
          (selectedLanguage w) = inl res)
  (Ht : speech_outcome gemini_tts decode_audio (script res)
          (getVoiceForGender (selectedGender w)) = inl buf) :
  let '(r, w') := performGeneration gemini_script gemini_tts decode_audio
                    gemini_image arts w in
  r = inl ()
  /\ appState w' = READY
  /\ errorMessage w' = None
  /\ summary w' = script res
  /\ sources w' = br_sources res
  /\ imageUrl w' = cover_image_result gemini_image (script res)
  /\ audioBufferRef w' = Some buf
  /\ savedBufferOffsetRef w' = 0%Q
  /\ calls w' = (calls w ++ [CallScript (validArticlesOf arts) (selectedLanguage w);
                             CallSpeech (script res)
                               (getVoiceForGender (selectedGender w));
                             CallImage (image_prompt (script res))])%list
  /\ history w' =
       addToHistory_upd
         (mkHistory (pretty (clock w)) (clock w)
            (history_topic (validArticlesOf arts)) (script res)
            (br_sources res) (cover_image_result gemini_image (script res)) buf)
         (history w).
Proof. exact (generation_success_run _ _ _ _ arts w res buf Hv Hs Ht). Qed.

(** When the script request fails, the pipeline ends in ERROR with the
    failure's message (the fixed fallback when it is empty) after issuing
    only the script request: no speech or image request, the briefing
    cleared, the history and the audio buffer as they were. *)
Theorem generation_script_failure gemini_script gemini_tts decode_audio
  gemini_image (arts : list Article) (w : World) (msg : string)
  (Hv : validArticlesOf arts <> [])
  (Hs : script_outcome gemini_script (validArticlesOf arts)
          (selectedLanguage w) = inr msg) :
  let '(r, w') := performGeneration gemini_script gemini_tts decode_audio
                    gemini_image arts w in
  r = inl ()
  /\ appState w' = ERROR
  /\ errorMessage w' =
       Some (if truthy msg then msg
             else "Something went wrong while generating the briefing.")
  /\ calls w' = (calls w ++ [CallScript (validArticlesOf arts) (selectedLanguage w)])%list
  /\ summary w' = ""
  /\ sources w' = []
  /\ imageUrl w' = None
  /\ history w' = history w
  /\ audioBufferRef w' = audioBufferRef w.
Proof.
  destruct w. cbn [selectedLanguage] in Hs.
  unfold performGeneration.
  destruct (validArticlesOf arts) as [|a rest] eqn:E; [contradiction|].
  run_app. rewrite Hs. run_app. repeat split.
Qed.

Lemma category_topic_not_blank (label : string) : ~ blank (category_topic label).
Proof. unfold blank, category_topic. simpl. intros H. inversion H. discriminate. Qed.

(** Selecting a category whose cache entry is not usable (absent, pending
    or failed, or without audio) replaces the articles by the single search
    topic "Top 5 recent <label> headlines", and the first request then
    issued is the script request for it in the selected language. *)
Theorem category_miss_requests_topic gemini_script gemini_tts decode_audio
  gemini_image (label : string) (w : World)
  (Hmiss : cache_hit (cache w !! label) = None) :
  let '(r, w') := handleCategorySelect gemini_script gemini_tts decode_audio
                    gemini_image label w in
  r = inl ()
  /\ articles w' = [mkArticle (pretty (clock w)) ASearch (category_topic label)]
  /\ exists rest, calls w' =
       (calls w ++ CallScript [mkArticle (pretty (clock w)) ASearch
                                 (category_topic label)]
                     (selectedLanguage w) :: rest)%list.
Proof.
  destruct w. cbn [cache] in Hmiss. unfold handleCategorySelect.
  rewrite gets_bind. cbn [cache]. rewrite Hmiss.
  assert (Hgen : forall w1 : World,
    clock w1 = clock0 -> articles w1 =
      [mkArticle (pretty clock0) ASearch (category_topic label)] ->
    let '(r, w') := performGeneration gemini_script gemini_tts decode_audio
        gemini_image [mkArticle (pretty clock0) ASearch (category_topic label)] w1 in
    r = inl ()
    /\ articles w' = [mkArticle (pretty clock0) ASearch (category_topic label)]
    /\ exists rest, calls w' =
       (calls w1 ++ CallScript [mkArticle (pretty clock0) ASearch
                                 (category_topic label)]
                     (selectedLanguage w1) :: rest)%list).
  { intros w1 Hc Ha. destruct w1. cbn [clock articles] in Hc, Ha. subst.
    unfold performGeneration.
    rewrite valid_articles_single by apply category_topic_not_blank.
    run_app.
    destruct (script_outcome _ _ _) as [res|msg]; run_app.
    - destruct (speech_outcome _ _ _ _) as [buf|m]; run_app.
      + destruct (gemini_image _) as [[[mime data]|]|e]; run_app;
          (split; [reflexivity|split; [reflexivity|]]);
          eexists; rewrite <- !app_assoc; reflexivity.
      + destruct (gemini_image _) as [[[mime data]|]|e]; run_app;
          (split; [reflexivity|split; [reflexivity|]]);
          eexists; rewrite <- !app_assoc; reflexivity.
    - split; [reflexivity|split; [reflexivity|]].
      eexists; reflexivity. }
  destruct (cache0 !! label) as [cd|];
    [destruct (cb_status cd)|]; run_app; apply Hgen; reflexivity.
Qed.


(** When the script or the speech request of a prefetch fails, the entry
    is marked failed and keeps the empty placeholder written when the task
    began; no other cache key and nothing the user sees changes. *)
Theorem prefetch_failure gemini_script gemini_tts decode_audio gemini_image
  (label : string) (w : World)
  (Hfail : (exists m, script_outcome gemini_script
              [mkArticle "bg" ASearch (category_topic label)] English = inr m)
           \/ (exists res m, script_outcome gemini_script
                 [mkArticle "bg" ASearch (category_topic label)] English
                 = inl res
               /\ speech_outcome gemini_tts decode_audio (script res) Kore
                  = inr m)) :
  let '(r, w') := prefetchCategory gemini_script gemini_tts decode_audio
                    gemini_image label w in
  r = inl ()
  /\ cache w' !! label = Some (mkCached label "" [] None None Failed (clock w))
  /\ (forall k, k <> label -> cache w' !! k = cache w !! k)
  /\ same_view w w'.
Proof.
  destruct w. unfold prefetchCategory, same_view.
  change (getVoiceForGender Female) with Kore.
  destruct Hfail as [[m Hs]|(res & m & Hs & Ht)]; run_app; rewrite Hs; run_app.
  - unfold mark_error. rewrite lookup_insert_eq; cbv beta iota.
    split; [reflexivity|split; [rewrite lookup_insert_eq; reflexivity|
      split; [intros k Hk; rewrite !lookup_insert_ne by congruence; reflexivity|
      repeat split]]].
  - rewrite Ht. run_app.
    destruct (gemini_image _) as [[[mime data]|]|e]; run_app;
      unfold mark_error; rewrite lookup_insert_eq; cbv beta iota;
      (split; [reflexivity|split; [rewrite lookup_insert_eq; reflexivity|
        split; [intros k Hk; rewrite !lookup_insert_ne by congruence; reflexivity|
        repeat split]]]).
Qed.

Lemma append_length (a b : string) :
  String.length (a +:+ b) = (String.length a + String.length b)%nat.
Proof. induction a as [|c a IH]; simpl; [done|by rewrite IH]. Qed.

Lemma substring_length_le (m : nat) (s : string) :
  (String.length (String.substring 0 m s) <= m)%nat.
Proof.
  revert m. induction s as [|c s IH]; intros [|m]; simpl; try lia.
  specialize (IH m). lia.
Qed.

Lemma substring_append_prefix (n : nat) (s t : string) :
  (n <= String.length s)%nat ->
  String.substring 0 n (s +:+ t) = String.substring 0 n s.
Proof.
  revert n. induction s as [|c s IH]; intros [|n] Hn; simpl in *.
  - by destruct t.
  - lia.
  - done.
  - rewrite IH; [done|lia].
Qed.

(** The topic a generated briefing is filed under is at most 53
    characters long: a longer list of topics is cut to 50 characters and
    "..." is appended. *)
Theorem history_topic_short (arts : list Article) :
  (String.length (history_topic arts) <= 53)%nat.
Proof.
  unfold history_topic.
  destruct (Nat.ltb 50 _) eqn:E.
  - rewrite append_length. pose proof (substring_length_le 50
      (String.concat ", " (map content arts))). simpl. lia.
  - apply Nat.ltb_ge in E. lia.
Qed.

(** The cover image prompt only depends on the first 500 characters of the
    script: text appended after them does not change it. *)
Theorem image_prompt_first_500 (s t : string)
  (Hlen : (500 <= String.length s)%nat) :
  image_prompt (s +:+ t) = image_prompt s.
Proof. unfold image_prompt. by rewrite substring_append_prefix. Qed.




(** [generateSpeech] rejects with "No audio data returned from Gemini."
    when the answer carries no audio payload or an empty one; the request
    is recorded and nothing the user sees changes. *)
Theorem speech_without_audio_rejects gemini_tts decode_audio (text : string)
  (voice : VoiceName) (w : World)
  (Hno : gemini_tts text voice = inl None
         \/ gemini_tts text voice = inl (Some "")) :
  let '(r, w') := generateSpeech gemini_tts decode_audio text voice w in
  r = inr "No audio data returned from Gemini."
  /\ calls w' = (calls w ++ [CallSpeech text voice])%list
  /\ same_view w w'.
Proof.
  destruct w. unfold same_view. run_app. unfold speech_outcome.
  destruct Hno as [H|H]; rewrite H;
    cbv beta iota delta [truthy negb String.eqb]; repeat split.
Qed.

(** [generateCoverImage] never rejects: it resolves to a [data:] URI built
    from the answer, or to [null] when the answer has no image or the
    request fails; it issues one image request and changes nothing else. *)
Theorem cover_image_never_rejects gemini_image (s : string) (w : World) :
  let '(r, w') := generateCoverImage gemini_image s w in
  r = inl (cover_image_result gemini_image s)
  /\ calls w' = (calls w ++ [CallImage (image_prompt s)])%list
  /\ cache w' = cache w
  /\ same_view w w'.
Proof.
  destruct w. unfold cover_image_result, same_view. run_app.
  destruct (gemini_image _) as [[[mime data]|]|e]; run_app; repeat split.
Qed.

Lemma load_history_run (item : HistoryItem) (w : World) :
  let '(r, w') := loadHistoryItem item w in
  r = inl ()
  /\ appState w' = READY
  /\ summary w' = h_summary item
  /\ sources w' = h_sources item
  /\ imageUrl w' = h_imageUrl item
  /\ audioBufferRef w' = Some (h_audioBuffer item)
  /\ savedBufferOffsetRef w' = 0%Q
  /\ articles w' = [mkArticle "history" ASearch (h_topic item)]
  /\ history w' = history w
  /\ cache w' = cache w
  /\ calls w' = calls w.
Proof. destruct w as [? st]. destruct st; run_app; repeat split. Qed.

(** A briefing generated with a fresh id goes to the head of the history,
    and loading that record later shows the same script, sources, cover
    image and audio as right after the generation, READY from offset 0,
    without any request and without changing the history. *)
Theorem generated_record_reloads gemini_script gemini_tts decode_audio
  gemini_image (arts : list Article) (w : World) (res : BriefingResult)
  (buf : AudioBuffer)
  (Hv : validArticlesOf arts <> [])
  (Hs : script_outcome gemini_script (validArticlesOf arts)
          (selectedLanguage w) = inl res)
  (Ht : speech_outcome gemini_tts decode_audio (script res)
          (getVoiceForGender (selectedGender w)) = inl buf)
  (Hfresh : Forall (fun i => h_id i <> pretty (clock w)) (history w)) :
  let w1 := snd (performGeneration gemini_script gemini_tts decode_audio
                   gemini_image arts w) in
  exists item, head (history w1) = Some item
  /\ let w2 := snd (loadHistoryItem item w1) in
     summary w2 = summary w1 /\ sources w2 = sources w1
     /\ imageUrl w2 = imageUrl w1 /\ audioBufferRef w2 = audioBufferRef w1
     /\ savedBufferOffsetRef w2 = 0%Q /\ appState w2 = READY
     /\ history w2 = history w1 /\ calls w2 = calls w1.
Proof.
  pose proof (generation_success_run gemini_script gemini_tts decode_audio
                gemini_image arts w res buf Hv Hs Ht) as G.
  destruct (performGeneration _ _ _ _ arts w) as [r w1]. simpl.
  destruct G as (_ & _ & _ & Hsum & Hsrc & Himg & Hbuf & _ & _ & Hh).
  rewrite Hh. unfold addToHistory_upd.
  destruct (find _ (history w)) eqn:F.
  { apply find_some in F as (Hin & Heq). apply String.eqb_eq in Heq.
    rewrite Forall_forall in Hfresh. apply list_elem_of_In in Hin.
    simpl in Heq. by destruct (Hfresh h Hin). }
  eexists. split; [reflexivity|].
  pose proof (load_history_run
    (mkHistory (pretty (clock w)) (clock w)
       (history_topic (validArticlesOf arts)) (script res) (br_sources res)
       (cover_image_result gemini_image (script res)) buf) w1) as L.
  destruct (loadHistoryItem _ w1) as [r2 w2]. simpl.
  destruct L as (_ & HA & HS & HSr & HI & HB & HO & _ & HH & _ & HC).
  rewrite HA, HS, HSr, HI, HB, HO, HH, HC, Hsum, Hsrc, Himg, Hbuf.
  repeat split. rewrite Hh. unfold addToHistory_upd. by rewrite F.
Qed.

(** A row added with [addArticle] is blank, so it changes nothing about
    which articles a generation uses; removing it again (its id is
    [Date.now()], fresh among the rows) gives back the rows as they were. *)
Theorem add_article_blank_row (w : World)
  (Hfresh : Forall (fun a => article_id a <> pretty (clock w)) (articles w)) :
  let w' := snd (addArticle w) in
  validArticlesOf (articles w') = validArticlesOf (articles w)
  /\ removeArticle_upd (pretty (clock w)) (articles w') = articles w
  /\ calls w' = calls w.
Proof.
  destruct w. cbn [articles clock] in Hfresh. run_app. split; [|split].
  - rewrite valid_articles_app, (valid_articles_nil [_]).
    + by rewrite app_nil_r.
    + repeat constructor.
  - unfold removeArticle_upd. rewrite List.filter_app. simpl.
    rewrite String.eqb_refl. simpl. rewrite app_nil_r.
    induction Hfresh as [|a l Ha _ IH]; [done|]. simpl.
    apply String.eqb_neq in Ha. rewrite Ha. simpl. by rewrite IH.
  - reflexivity.
Qed.

End PipelineExtras.

(* ================================================================= *)
(** ** Playback handlers composed *)

Module TrackerExtras.
Import Tracker.
Local Open Scope Q_scope.

(** Moving the rate slider during playback does not move the playback
    position: the time played so far is committed at the old rate, the new
    rate is set on the live source, and only later time runs at it. *)
Theorem rate_change_keeps_position (r : Q) (t : Tracker) (src : nat)
  (Hctx : ctx_present t = true) (Hsrc : sourceNode t = Some src)
  (Hp : playing t = true) :
  position (handleRateChange r t) == position t
  /\ playbackRate (handleRateChange r t) = r
  /\ log (handleRateChange r t)
     = (log t ++ [Committed ((now t - segmentStartTime t) * playbackRate t);
                  RateSet src r])%list.
Proof.
  destruct t; simpl in *; subst.
  unfold handleRateChange, commitProgress, position; simpl.
  split; [ring|split; [reflexivity|]]. by rewrite <- app_assoc.
Qed.

(** Time played before and after a rate change adds up, each stretch at its
    own rate: waiting [a], setting rate [r], waiting [b] and pausing leaves
    the saved offset at the position before plus [a] at the old rate plus
    [b] at the new one. *)
Theorem segments_accumulate_at_own_rates (start_ok : Q -> Q -> bool)
  (t : Tracker) (src : nat) (a b r : Q)
  (Hctx : ctx_present t = true) (Hsrc : sourceNode t = Some src)
  (Hp : playing t = true) :
  let t' := run start_ok [Wait a; SetRate r; Wait b; Click] t in
  savedBufferOffset t' == position t + a * playbackRate t + b * r
  /\ playing t' = false.
Proof.
  destruct t; simpl in *; subst.
  unfold handleRateChange, pauseAudio, commitProgress, position; simpl.
  split; [ring|reflexivity].
Qed.

(** Pausing and pressing play again at once resumes where playback was: a
    new source starts at the committed offset (never below 0) and the
    position is unchanged. *)
Theorem pause_then_play_resumes (t : Tracker) (d : Q) (src : nat)
  (Hctx : ctx_present t = true) (Hbuf : buffer t = Some d)
  (Hsrc : sourceNode t = Some src) (Hp : playing t = true) :
  let t' := run web_start_ok [Click; Click] t in
  playing t' = true
  /\ sourceNode t' = Some (next_source t)
  /\ position t' == position t
  /\ exists off, last (log t') = Some (Started (next_source t) off)
                 /\ off == Qmax 0 (position t).
Proof.
  destruct t; simpl in *; subst.
  unfold pauseAudio, playAudio, commitProgress, position, web_start_ok; simpl.
  set (o := savedBufferOffset0 + (now0 - segmentStartTime0) * playbackRate0).
  destruct (Qle_bool 0 (Qmax 0 o)) eqn:E.
  - simpl. split; [reflexivity|split; [reflexivity|split; [ring|]]].
    eexists. split; [by rewrite last_snoc|reflexivity].
  - exfalso. apply Bool.not_true_iff_false in E. apply E.
    apply Qle_bool_iff, Q.le_max_l.
Qed.

End TrackerExtras.

(* ================================================================= *)
(** ** Visualizer bars *)

Module VisualizerExtras.
Import Visualizer.
Local Open Scope Q_scope.

Lemma floor_between (x : Q) (lo hi : Z) :
  inject_Z lo <= x -> x < inject_Z hi + 1 ->
  (lo <= Qfloor x <= hi)%Z.
Proof.
  intros H1 H2. split.
  - rewrite <- (Qfloor_Z lo). by apply Qfloor_resp_le.
  - pose proof (Qfloor_le x) as H3.
    assert (H4 : inject_Z (Qfloor x) < inject_Z (hi + 1)) by
      (rewrite inject_Z_plus; eapply Qle_lt_trans; eassumption).
    rewrite <- Zlt_Qlt in H4. lia.
Qed.

Lemma byte_q (d : Z) : (0 <= d <= 255)%Z -> 0 <= inject_Z d <= 255.
Proof.
  intros [H1 H2]. split.
  - change 0 with (inject_Z 0). by rewrite <- Zle_Qle.
  - change 255 with (inject_Z 255). by rewrite <- Zle_Qle.
Qed.

(** For every frequency byte, the bar is between 4 and 100 pixels high
    (quiet bins still show a 4 px bar), lies within the 100 px canvas
    vertically, and grows with the byte. *)
Theorem bar_geometry (d : Z) (Hd : (0 <= d <= 255)%Z) :
  4 <= bar_height d <= height
  /\ 0 <= bar_y d
  /\ bar_y d + bar_height d <= height
  /\ (forall d', (d <= d')%Z -> bar_height d <= bar_height d').
Proof.
  pose proof (byte_q d Hd) as [H1 H2].
  unfold bar_y, bar_height, height, Qdiv.
  change (/ 255) with (1#255). change (/ 2) with (1#2).
  set (x := inject_Z d) in *.
  assert (Hh : 4 <= Qmax 4 (x * (1#255) * 100) <= 100).
  { split; [apply Q.le_max_l|].
    apply Q.max_lub; lra. }
  split; [exact Hh|split; [|split]].
  - lra.
  - lra.
  - intros d' Hd'. apply Q.max_le_compat_l.
    unfold Qdiv. change (/ 255) with (1#255).
    rewrite Zle_Qle in Hd'. fold x in Hd'. lra.
Qed.

Lemma bar_t_bounds (d : Z) : (0 <= d)%Z -> (1#5) <= bar_t d <= 1.
Proof.
  intros Hd. unfold bar_t, Qdiv. change (/ 255) with (1#255).
  assert (H0 : 0 <= inject_Z d)
    by (change 0 with (inject_Z 0); by rewrite <- Zle_Qle).
  split.
  - apply Q.min_glb; lra.
  - apply Q.le_min_l.
Qed.

(** Every bar's colour stays between the indigo and the cyan ends of the
    gradient: red 34 to 86, green 124 to 211, blue 238 to 240. *)
Theorem bar_colour_range (d : Z) (Hd : (0 <= d)%Z) :
  let '(r, g, b) := bar_fill d in
  (34 <= r <= 86)%Z /\ (124 <= g <= 211)%Z /\ (238 <= b <= 240)%Z.
Proof.
  unfold bar_fill, js_round. pose proof (bar_t_bounds d Hd) as [H1 H2].
  set (t := bar_t d) in *. clearbody t.
  split; [|split]; apply floor_between; cbv [inject_Z]; lra.
Qed.

(** From byte 136 up the colour is saturated: every such bar is drawn in
    pure cyan [rgb(34, 211, 238)]. *)
Theorem loud_bars_cyan (d : Z) (Hd : (136 <= d)%Z) :
  bar_fill d = (34, 211, 238)%Z.
Proof.
  assert (Ht : bar_t d = 1).
  { unfold bar_t, Qmin, GenericMinMax.gmin.
    destruct (1 ?= _) eqn:E; try reflexivity.
    exfalso. apply Qgt_alt in E. revert E. apply Qle_not_lt.
    unfold Qdiv. change (/ 255) with (1#255).
    assert (H0 : inject_Z 136 <= inject_Z d) by (by rewrite <- Zle_Qle).
    cbv [inject_Z] in H0 |- *. lra. }
  unfold bar_fill. rewrite Ht. reflexivity.
Qed.

End VisualizerExtras.

(* ================================================================= *)
(** ** The properties above at concrete inputs *)

Module ExtraWitnesses.
Import Tracker App AppSpec Visualizer Fixtures ListExtras TrimExtras
  PipelineExtras TrackerExtras VisualizerExtras.
Local Open Scope string_scope.

Definition res1 : BriefingResult :=
  mkResult "Here are your top 5 stories." [mkSource "A" "https://example.org/a"].

Lemma add_then_delete_history_witness :
  deleteHistoryItem_upd "1" (addToHistory_upd item1 [item2]) = [item2].
Proof.
  apply (add_then_delete_history item1 [item2]).
  constructor; [discriminate|constructor].
Defined.

Lemma add_history_keeps_ids_distinct_witness :
  NoDup (map h_id (addToHistory_upd item1 [item2])).
Proof.
  apply (add_history_keeps_ids_distinct item1 [item2]).
  apply NoDup_singleton.
Defined.



Lemma generation_success_witness :
  let arts := [mkArticle "1" ASearch "ai"] in
  let '(r, w') := performGeneration svc_script svc_tts_ok svc_decode
                    svc_image_down arts start_world in
  r = inl ()
  /\ appState w' = READY
  /\ errorMessage w' = None
  /\ summary w' = script res1
  /\ sources w' = br_sources res1
  /\ imageUrl w' = cover_image_result svc_image_down (script res1)
  /\ audioBufferRef w' = Some buf1
  /\ savedBufferOffsetRef w' = 0%Q
  /\ calls w' = (calls start_world ++
                 [CallScript (validArticlesOf arts) (selectedLanguage start_world);
                  CallSpeech (script res1)
                    (getVoiceForGender (selectedGender start_world));
                  CallImage (image_prompt (script res1))])%list
  /\ history w' =
       addToHistory_upd
         (mkHistory (pretty (clock start_world)) (clock start_world)
            (history_topic (validArticlesOf arts)) (script res1)
            (br_sources res1) (cover_image_result svc_image_down (script res1))
            buf1)
         (history start_world).
Proof.
  apply (generation_success svc_script svc_tts_ok svc_decode svc_image_down
           [mkArticle "1" ASearch "ai"] start_world res1 buf1);
    [discriminate|reflexivity|reflexivity].
Defined.

Lemma generation_script_failure_witness :
  let arts := [mkArticle "1" ASearch "ai"] in
  let '(r, w') := performGeneration svc_script_down svc_tts_ok svc_decode
                    svc_image_down arts start_world in
  r = inl ()
  /\ appState w' = ERROR
  /\ errorMessage w' =
       Some (if truthy "" then ""
             else "Something went wrong while generating the briefing.")
  /\ calls w' = (calls start_world ++
                 [CallScript (validArticlesOf arts) (selectedLanguage start_world)])%list
  /\ summary w' = ""
  /\ sources w' = []
  /\ imageUrl w' = None
  /\ history w' = history start_world
  /\ audioBufferRef w' = audioBufferRef start_world.
Proof.
  apply (generation_script_failure svc_script_down svc_tts_ok svc_decode
           svc_image_down [mkArticle "1" ASearch "ai"] start_world "");
    [discriminate|reflexivity].
Defined.

Lemma category_miss_requests_topic_witness :
  let '(r, w') := handleCategorySelect svc_script svc_tts_ok svc_decode
                    svc_image_down "World" start_world in
  r = inl ()
  /\ articles w' = [mkArticle (pretty (clock start_world)) ASearch
                      (category_topic "World")]
  /\ exists rest, calls w' =
       (calls start_world ++
        CallScript [mkArticle (pretty (clock start_world)) ASearch
                      (category_topic "World")]
          (selectedLanguage start_world) :: rest)%list.
Proof. apply category_miss_requests_topic. reflexivity. Defined.


Lemma prefetch_failure_witness :
  let '(r, w') := prefetchCategory svc_script svc_tts_down svc_decode
                    svc_image_down "Tech" start_world in
  r = inl ()
  /\ cache w' !! "Tech" =
       Some (mkCached "Tech" "" [] None None Failed (clock start_world))
  /\ (forall k, k <> "Tech" -> cache w' !! k = cache start_world !! k)
  /\ same_view start_world w'.
Proof.
  apply prefetch_failure. right. exists res1, "quota exceeded".
  split; reflexivity.
Defined.

Lemma image_prompt_first_500_witness :
  image_prompt (long_text +:+ " and more") = image_prompt long_text.
Proof.
  apply image_prompt_first_500. apply Nat.leb_le. vm_compute. reflexivity.
Defined.


Lemma speech_without_audio_rejects_witness :
  let '(r, w') := generateSpeech svc_tts_empty svc_decode "hello" Kore
                    start_world in
  r = inr "No audio data returned from Gemini."
  /\ calls w' = (calls start_world ++ [CallSpeech "hello" Kore])%list
  /\ same_view start_world w'.
Proof. apply speech_without_audio_rejects. right. reflexivity. Defined.

Lemma generated_record_reloads_witness :
  let w1 := snd (performGeneration svc_script svc_tts_ok svc_decode
                   svc_image_down [mkArticle "1" ASearch "ai"] start_world) in
  exists item, head (history w1) = Some item
  /\ let w2 := snd (loadHistoryItem item w1) in
     summary w2 = summary w1 /\ sources w2 = sources w1
     /\ imageUrl w2 = imageUrl w1 /\ audioBufferRef w2 = audioBufferRef w1
     /\ savedBufferOffsetRef w2 = 0%Q /\ appState w2 = READY
     /\ history w2 = history w1 /\ calls w2 = calls w1.
Proof.
  apply (generated_record_reloads svc_script svc_tts_ok svc_decode
           svc_image_down [mkArticle "1" ASearch "ai"] start_world res1 buf1);
    [discriminate|reflexivity|reflexivity|constructor].
Defined.

Lemma add_article_blank_row_witness :
  let w' := snd (addArticle rows_world) in
  validArticlesOf (articles w') = validArticlesOf (articles rows_world)
  /\ removeArticle_upd (pretty (clock rows_world)) (articles w')
     = articles rows_world
  /\ calls w' = calls rows_world.
Proof.
  apply add_article_blank_row.
  constructor; [vm_compute; discriminate|constructor].
Defined.

Lemma rate_change_keeps_position_witness :
  (position (handleRateChange 2 playing_from_0) == position playing_from_0)%Q
  /\ playbackRate (handleRateChange 2 playing_from_0) = 2%Q
  /\ log (handleRateChange 2 playing_from_0)
     = (log playing_from_0 ++
        [Committed ((now playing_from_0 - segmentStartTime playing_from_0)
                    * playbackRate playing_from_0);
         RateSet 0 2])%list.
Proof. apply rate_change_keeps_position; vm_compute; reflexivity. Defined.

Lemma segments_accumulate_at_own_rates_witness :
  let t' := run web_start_ok [Wait 2; SetRate (3#2); Wait 4; Click]
              playing_from_0 in
  (savedBufferOffset t' == position playing_from_0
     + 2 * playbackRate playing_from_0 + 4 * (3#2))%Q
  /\ playing t' = false.
Proof.
  apply (segments_accumulate_at_own_rates web_start_ok playing_from_0 0);
    vm_compute; reflexivity.
Defined.

Lemma pause_then_play_resumes_witness :
  let t' := run web_start_ok [Click; Click] playing_from_0 in
  playing t' = true
  /\ sourceNode t' = Some (next_source playing_from_0)
  /\ (position t' == position playing_from_0)%Q
  /\ exists off, last (log t') = Some (Started (next_source playing_from_0) off)
                 /\ (off == Qmax 0 (position playing_from_0))%Q.
Proof.
  apply (pause_then_play_resumes playing_from_0 10 0); vm_compute; reflexivity.
Defined.

Lemma bar_geometry_witness :
  (4 <= bar_height 128 <= height)%Q
  /\ (0 <= bar_y 128)%Q
  /\ (bar_y 128 + bar_height 128 <= height)%Q
  /\ (forall d', (128 <= d')%Z -> (bar_height 128 <= bar_height d')%Q).
Proof. apply bar_geometry. lia. Defined.

Lemma bar_colour_range_witness :
  let '(r, g, b) := bar_fill 60 in
  (34 <= r <= 86)%Z /\ (124 <= g <= 211)%Z /\ (238 <= b <= 240)%Z.
Proof. apply bar_colour_range. lia. Defined.

Lemma loud_bars_cyan_witness : bar_fill 200 = (34, 211, 238)%Z.
Proof. apply loud_bars_cyan. lia. Defined.

End ExtraWitnesses.
